(** * no_clock: an analytical clock for SystemC models

    A shallow embedding of [include/no_clock.h].  A [no_clock] never ticks;
    every query is a function of the current simulated time
    ([sc_core::sc_time_stamp()]) and of the clock's configuration.  In this
    development the current time is an explicit argument [now] of every
    function that reads it in the source.

    Numbers.  [sc_core::sc_time] stores an unsigned 64-bit count of time
    resolution units; its [+] and [-] act on that count and wrap around.
    The header mixes this integer arithmetic with [double] arithmetic
    ([to_seconds], [sc_time / sc_time], [double * sc_time], the [sc_time]
    constructor from seconds).  A [double] is an IEEE 754 binary64 number:
    the operations are those of [SpecFloat] at precision 53, rounding to
    nearest with ties to even, so that every intermediate result is the one
    the machine computes.  A conversion of a double to an integer type
    truncates; when the value does not fit the type, which the language
    leaves undefined, it yields what the conversion instruction of x86-64
    yields, the most negative value of the type. *)

From Stdlib Require Import ZArith QArith Lia.
From Stdlib Require Import Floats.SpecFloat.
From stdpp Require Import base gmap strings.

Local Open Scope Z_scope.

(** ** The part of the SystemC kernel the header relies on *)

Module sc_core.

(** [sc_time::m_value] : [sc_dt::uint64]. *)
Abbreviation sc_time := Z (only parsing).

Definition wrap64 (z : Z) : Z := z mod 2 ^ 64.
Definition wrap32 (z : Z) : Z := z mod 2 ^ 32.

Definition SC_ZERO_TIME : sc_time := 0.

(** *** Doubles *)

Abbreviation double := spec_float (only parsing).

Definition prec : Z := 53.
Definition emax : Z := 1024.

(** The conversion of an integer to double: the nearest double. *)
Definition double_of_Z (z : Z) : double := binary_normalize prec emax z 0 false.

Definition dadd (x y : double) : double := SFadd prec emax x y.
Definition dsub (x y : double) : double := SFsub prec emax x y.
Definition dmul (x y : double) : double := SFmul prec emax x y.
Definition ddiv (x y : double) : double := SFdiv prec emax x y.

(** The literal [0.5]. *)
Definition one_half : double := binary_normalize prec emax 1 (-1) false.

(** A rational argument, such as the literal [0.3], as the double nearest to
    it (numerator and denominator below [2 ^ 53]). *)
Definition double_of_Q (q : Q) : double :=
  ddiv (double_of_Z (Qnum q)) (double_of_Z (Zpos (Qden q))).

(** [x != 0] on a double is false on both zeros. *)
Definition is_zero (x : double) : bool :=
  match x with
  | S754_zero _ => true
  | _ => false
  end.

(** The integer part of a finite double, toward zero. *)
Definition truncate (x : double) : option Z :=
  match x with
  | S754_zero _ => Some 0
  | S754_finite s m e =>
      let a := match e with
               | Zneg k => Z.shiftr (Zpos m) (Zpos k)
               | _ => Zpos m * 2 ^ e
               end in
      Some (if s then - a else a)
  | S754_infinity _ | S754_nan => None
  end.

(** [int(x)]: a 32-bit [int]. *)
Definition to_int (x : double) : Z :=
  match truncate x with
  | Some z => if (- 2 ^ 31 <=? z) && (z <? 2 ^ 31) then z else - 2 ^ 31
  | None => - 2 ^ 31
  end.

(** [static_cast<sc_dt::int64>(x)]. *)
Definition to_int64 (x : double) : Z :=
  match truncate x with
  | Some z => if (- 2 ^ 63 <=? z) && (z <? 2 ^ 63) then z else - 2 ^ 63
  | None => - 2 ^ 63
  end.

(** [(unsigned long int)x], a 64-bit type: the signed conversion unless [x]
    compares at or above [2 ^ 63]; from there on the signed conversion of
    [x - 2 ^ 63] with the top bit set. *)
Definition to_ulong (x : double) : Z :=
  match SFcompare x (double_of_Z (2 ^ 63)) with
  | Some Lt | None => wrap64 (to_int64 x)
  | Some Eq | Some Gt => wrap64 (to_int64 (dsub x (double_of_Z (2 ^ 63))) + 2 ^ 63)
  end.

(** [sc_dt::uint64_to_double]: the nearest double of a 64-bit count. *)
Definition uint64_to_double (m : Z) : double := double_of_Z (wrap64 m).

(** A double that is neither an infinity nor a NaN. *)
Definition is_finite (x : double) : bool :=
  match x with
  | S754_zero _ | S754_finite _ _ _ => true
  | S754_infinity _ | S754_nan => false
  end.

(** *** Times *)

(** [sc_time::operator+=] and [sc_time::operator-=] on the 64-bit count. *)
Definition time_add (a b : sc_time) : sc_time := wrap64 (a + b).
Definition time_sub (a b : sc_time) : sc_time := wrap64 (a - b).

(** The default time resolution, one picosecond, in femtoseconds as the
    kernel keeps it, and the literal [1e-15]. *)
Definition time_resolution : double := double_of_Z 1000.
Definition femto : double := ddiv (double_of_Z 1) (double_of_Z (10 ^ 15)).

(** [sc_time::to_double] and [sc_time::to_seconds], which is
    [uint64_to_double(m_value) * time_resolution * 1e-15]. *)
Definition to_double (t : sc_time) : double := uint64_to_double t.
Definition to_seconds (t : sc_time) : double :=
  dmul (dmul (uint64_to_double t) time_resolution) femto.

(** [sc_time(v, SC_SEC)]: zero when [v] is zero; otherwise [v] times the
    scale factor [1e15 / time_resolution], plus one half, converted to a
    64-bit integer. *)
Definition sc_time_of_seconds (v : double) : sc_time :=
  if is_zero v then 0
  else
    let scale_fac := ddiv (double_of_Z (10 ^ 15)) time_resolution in
    let tmp := dadd (dmul v scale_fac) one_half in
    wrap64 (to_int64 tmp).

(** [operator*(double, sc_time)]: the count as a double times [d], plus one
    half, converted to a 64-bit integer. *)
Definition time_scale (d : double) (t : sc_time) : sc_time :=
  let tmp := dadd (dmul (uint64_to_double t) d) one_half in
  wrap64 (to_int64 tmp).

(** [operator/(sc_time, sc_time)] returns a double. *)
Definition time_div (a b : sc_time) : double := ddiv (to_double a) (to_double b).

(** *** Reports *)

Inductive sc_severity : Type := SC_INFO | SC_WARNING | SC_ERROR | SC_FATAL.

Record sc_report : Type := mk_report {
  rep_severity : sc_severity;
  rep_msg_type : string;
  rep_msg : string;
  rep_file : string;
  rep_line : Z
}.

(** A call either returns or leaves through the exception that the report
    handler throws. *)
Inductive outcome (A : Type) : Type :=
| Returned (a : A)
| Thrown (r : sc_report).
Arguments Returned {A} a.
Arguments Thrown {A} r.

(** Computations over an object of type [St] and the report log. *)
Definition Sim (St A : Type) : Type :=
  St * list sc_report -> outcome A * (St * list sc_report).

Definition ret {St A : Type} (a : A) : Sim St A := fun w => (Returned a, w).

Definition bind {St A B : Type} (m : Sim St A) (k : A -> Sim St B) : Sim St B :=
  fun w =>
    match m w with
    | (Returned a, w') => k a w'
    | (Thrown r, w') => (Thrown r, w')
    end.

(** [sc_report_handler::report] with the kernel's default actions: every
    report is logged; an error or a fatal report does not return to the
    caller. *)
Definition report {St : Type} (sev : sc_severity) (msg_type msg file : string)
    (line : Z) : Sim St unit :=
  fun w =>
    let r := mk_report sev msg_type msg file line in
    let w' := (fst w, snd w ++ [r]) in
    match sev with
    | SC_INFO | SC_WARNING => (Returned tt, w')
    | SC_ERROR | SC_FATAL => (Thrown r, w')
    end.

End sc_core.
Import sc_core.

Notation "x <- m ;; k" := (bind m (fun x => k))
  (at level 100, m at next level, right associativity).
Notation "m ;;; k" := (bind m (fun _ => k))
  (at level 100, right associativity).

(** ** Utilities of no_clock.h *)

(** Line 91 of the header, on the two doubles:
    [rslt = lhd - rhd*int(lhd/rhd)]. *)
Definition remainder_seconds (lhd rhd : double) : double :=
  dsub lhd (dmul rhd (double_of_Z (to_int (ddiv lhd rhd)))).

(** [operator % (const sc_time& lhs, const sc_time& rhs)]. *)
Definition time_rem (lhs rhs : sc_time) : sc_time :=
  let lhd := to_seconds lhs in
  let rhd := to_seconds rhs in
  let rslt := remainder_seconds lhd rhd in
  sc_time_of_seconds rslt.


(** [sc_core_time_diff].  The preprocessor symbol [INVERT_NEGATIVE] selects
    the policy for a negative difference; it is a parameter here and [false]
    stands for the default build, in which the symbol is not defined. *)
Definition sc_core_time_diff {St : Type} (INVERT_NEGATIVE : bool)
    (lhs rhs : sc_time) (file : string) (lnum : Z) : Sim St sc_time :=
  if lhs >=? rhs then ret (time_sub lhs rhs)
  else if INVERT_NEGATIVE then
    report SC_WARNING "time_diff"
      "Negative time calculation returning the negative difference"
      file lnum ;;;
    ret (time_sub rhs lhs)
  else
    report SC_WARNING "time_diff"
      "Negative time calculation returning SC_ZERO_TIME"
      file lnum ;;;
    ret SC_ZERO_TIME.

(** [delay(tPERIOD, tOFFSET, tSHIFT)]: the time to wait from [now] to reach
    the offset [tOFFSET] within the period. *)
Definition delay (now : sc_time) (tPERIOD tOFFSET tSHIFT : sc_time) : sc_time :=
  let tREMAINDER := time_rem (time_add now tSHIFT) tPERIOD in
  if tREMAINDER =? tOFFSET then SC_ZERO_TIME
  else if tREMAINDER <? tOFFSET then time_sub tOFFSET tREMAINDER
  else time_sub (time_add tPERIOD tOFFSET) tREMAINDER.

(** [clocks(tPERIOD, tZERO, tSHIFT)]: the number of periods since [tZERO]. *)
Definition clocks (now : sc_time) (tPERIOD tZERO tSHIFT : sc_time) : Z :=
  to_ulong (time_div (time_sub (time_add now tSHIFT) tZERO) tPERIOD).

(** ** The class no_clock *)

(** [const char*]: the address of a string.  [std::map<const char*, _>]
    orders its keys by this address. *)
Abbreviation c_str := Z (only parsing).

(** [sc_event], reduced to its pending notification. *)
Inductive sc_event : Type := Event (pending : option sc_time).

(** The data members of the class, in the order of their declaration.
    [m_get_time] is left out: the current time is the argument [now]. *)
Record no_clock : Type := mk_no_clock {
  m_clock_name : c_str;
  m_tPERIOD : sc_time;
  m_duty : Q;
  m_tOFFSET : sc_time;
  m_tPOSEDGE : sc_time;
  m_tNEGEDGE : sc_time;
  m_posedge : bool;
  m_tSAMPLE : sc_time;
  m_tSETEDGE : sc_time;
  m_anyedge_event : sc_event;
  m_posedge_event : sc_event;
  m_negedge_event : sc_event;
  m_sample_event : sc_event;
  m_setedge_event : sc_event;
  m_frequency_set : sc_time;
  m_freq_count : Z;
  m_base_count : Z;
  m_tSHIFT : sc_time
}.

(** An [unsigned int] argument converted to double. *)
Definition of_uint (cycles : Z) : double := double_of_Z cycles.

Definition set_time_shift (tSHIFT : sc_time) (c : no_clock) : no_clock :=
  mk_no_clock (m_clock_name c) (m_tPERIOD c) (m_duty c) (m_tOFFSET c)
    (m_tPOSEDGE c) (m_tNEGEDGE c) (m_posedge c) (m_tSAMPLE c) (m_tSETEDGE c)
    (m_anyedge_event c) (m_posedge_event c) (m_negedge_event c)
    (m_sample_event c) (m_setedge_event c)
    (m_frequency_set c) (m_freq_count c) (m_base_count c) tSHIFT.

Definition name (c : no_clock) : c_str := m_clock_name c.
Definition period (c : no_clock) (cycles : Z) : sc_time :=
  time_scale (of_uint cycles) (m_tPERIOD c).
Definition duty (c : no_clock) : Q := m_duty c.
Definition frequency (c : no_clock) : double :=
  time_div (sc_time_of_seconds (double_of_Z 1)) (m_tPERIOD c).
Definition time_shift (c : no_clock) : sc_time := m_tSHIFT c.
Definition frequency_changes (c : no_clock) : Z := wrap32 (m_freq_count c).

(** [cycles()]: the sum is an [unsigned long], the result an
    [unsigned int]. *)
Definition cycles (c : no_clock) (now : sc_time) : Z :=
  wrap32 (wrap64 (m_base_count c
                  + clocks now (m_tPERIOD c) (m_frequency_set c) (m_tSHIFT c))).

Definition until_posedge (c : no_clock) (now : sc_time) (cycles : Z) : sc_time :=
  time_add (time_scale (of_uint cycles) (m_tPERIOD c))
           (delay now (m_tPERIOD c) (m_tPOSEDGE c) (m_tSHIFT c)).

Definition until_negedge (c : no_clock) (now : sc_time) (cycles : Z) : sc_time :=
  time_add (time_scale (of_uint cycles) (m_tPERIOD c))
           (delay now (m_tPERIOD c) (m_tNEGEDGE c) (m_tSHIFT c)).

Definition read (c : no_clock) (now : sc_time) : bool :=
  until_negedge c now 0 <? until_posedge c now 0.

Definition until_anyedge (c : no_clock) (now : sc_time) (cycles : Z) : sc_time :=
  time_add (time_scale (of_uint cycles) (m_tPERIOD c))
           (if read c now then until_negedge c now 0 else until_posedge c now 0).

Definition until_sample (c : no_clock) (now : sc_time) (cycles : Z) : sc_time :=
  time_add (time_scale (of_uint cycles) (m_tPERIOD c))
           (delay now (m_tPERIOD c) (m_tSAMPLE c) (m_tSHIFT c)).

Definition until_setedge (c : no_clock) (now : sc_time) (cycles : Z) : sc_time :=
  time_add (time_scale (of_uint cycles) (m_tPERIOD c))
           (delay now (m_tPERIOD c) (m_tSETEDGE c) (m_tSHIFT c)).

(** The [next_*] queries.  [cycles + (SC_ZERO_TIME == t ? 1 : 0)] is an
    [unsigned int] sum. *)
Definition next_posedge (c : no_clock) (now : sc_time) (cycles : Z) : sc_time :=
  let t := delay now (m_tPERIOD c) (m_tPOSEDGE c) (m_tSHIFT c) in
  time_add
    (time_scale (of_uint (wrap32 (cycles + (if SC_ZERO_TIME =? t then 1 else 0))))
                (m_tPERIOD c))
    t.

Definition next_negedge (c : no_clock) (now : sc_time) (cycles : Z) : sc_time :=
  let t := delay now (m_tPERIOD c) (m_tNEGEDGE c) (m_tSHIFT c) in
  time_add
    (time_scale (of_uint (wrap32 (cycles + (if SC_ZERO_TIME =? t then 1 else 0))))
                (m_tPERIOD c))
    t.

Definition next_anyedge (c : no_clock) (now : sc_time) (cycles : Z) : sc_time :=
  time_add (time_scale (of_uint cycles) (m_tPERIOD c))
           (if read c now then next_negedge c now 0 else next_posedge c now 0).

Definition next_sample (c : no_clock) (now : sc_time) (cycles : Z) : sc_time :=
  let t := delay now (m_tPERIOD c) (m_tSAMPLE c) (m_tSHIFT c) in
  time_add
    (time_scale (of_uint (wrap32 (cycles + (if SC_ZERO_TIME =? t then 1 else 0))))
                (m_tPERIOD c))
    t.

Definition next_setedge (c : no_clock) (now : sc_time) (cycles : Z) : sc_time :=
  let t := delay now (m_tPERIOD c) (m_tSETEDGE c) (m_tSHIFT c) in
  time_add
    (time_scale (of_uint (wrap32 (cycles + (if SC_ZERO_TIME =? t then 1 else 0))))
                (m_tPERIOD c))
    t.

(** The polling predicates, as the header defines them (lines 435-458). *)
Definition at_posedge_time (c : no_clock) (now : sc_time) : bool :=
  until_posedge c now 0 =? SC_ZERO_TIME.

Definition at_negedge_time (c : no_clock) (now : sc_time) : bool :=
  until_negedge c now 0 =? SC_ZERO_TIME.

Definition at_anyedge_time (c : no_clock) (now : sc_time) : bool :=
  until_anyedge c now 0 =? SC_ZERO_TIME.

Definition at_sample_time (c : no_clock) (now : sc_time) : bool :=
  until_sample c now 0 =? SC_ZERO_TIME.

Definition at_setedge_time (c : no_clock) (now : sc_time) : bool :=
  until_sample c now 0 =? SC_ZERO_TIME.

Definition posedge (c : no_clock) (now : sc_time) : bool := at_posedge_time c now.
Definition negedge (c : no_clock) (now : sc_time) : bool := at_negedge_time c now.
Definition event (c : no_clock) (now : sc_time) : bool := at_anyedge_time c now.

(** [write]: the body is the single macro call
    [SC_REPORT_ERROR("/no_clock","write() not allowed on clock")]. *)
Definition write (v : bool) : Sim no_clock unit :=
  report SC_ERROR "/no_clock" "write() not allowed on clock" "no_clock.h" 260.

(** The waits: the calling process is suspended for the computed time
    unless that time is zero.  The result is the time at which the call
    returns. *)
Definition wait (now t : sc_time) : sc_time := time_add now t.

Definition wait_posedge (c : no_clock) (now : sc_time) (cycles : Z) : sc_time :=
  let t := until_posedge c now cycles in
  if negb (SC_ZERO_TIME =? t) then wait now t else now.

Definition wait_negedge (c : no_clock) (now : sc_time) (cycles : Z) : sc_time :=
  let t := until_negedge c now cycles in
  if negb (SC_ZERO_TIME =? t) then wait now t else now.

Definition wait_anyedge (c : no_clock) (now : sc_time) (cycles : Z) : sc_time :=
  let t := until_anyedge c now cycles in
  if negb (SC_ZERO_TIME =? t) then wait now t else now.

Definition wait_sample (c : no_clock) (now : sc_time) (cycles : Z) : sc_time :=
  let t := until_sample c now cycles in
  if negb (SC_ZERO_TIME =? t) then wait now t else now.

Definition wait_setedge (c : no_clock) (now : sc_time) (cycles : Z) : sc_time :=
  let t := until_setedge c now cycles in
  if negb (SC_ZERO_TIME =? t) then wait now t else now.

(** ** Members declared in the header and defined outside it

    The constructor, the mutators other than [set_time_shift] and the two
    [global] accessors are declared by the class and defined in a file that
    is not part of the header. *)

(** Modelled from the spec: the derivation of the two edge offsets, missing
    with the constructor.  "high-time = dutyCycle * period; if
    firstEdgePositive, positive-edge-offset = offset, negative-edge-offset =
    offset + high-time (mod period); otherwise swapped.  Both are normalized
    into [0, period)." *)
Definition derive_edges (tPERIOD : sc_time) (duty : Q) (tOFFSET : sc_time)
    (positive : bool) : sc_time * sc_time :=
  let tHIGH := time_scale (double_of_Q duty) tPERIOD in
  let first := time_rem tOFFSET tPERIOD in
  let second := time_rem (time_add tOFFSET tHIGH) tPERIOD in
  if positive then (first, second) else (second, first).

(** Modelled from the spec: the constructor [no_clock::no_clock] with seven
    arguments, missing from the header.  The time of the last frequency
    change is "initialized to zero-time at construction"; the counters and
    the temporal shift start at zero. *)
Definition no_clock_ctor (clock_instance : c_str) (tPERIOD : sc_time) (duty : Q)
    (tOFFSET tSAMPLE tSETEDGE : sc_time) (positive : bool) : no_clock :=
  let edges := derive_edges tPERIOD duty tOFFSET positive in
  mk_no_clock clock_instance tPERIOD duty tOFFSET (fst edges) (snd edges)
    positive tSAMPLE tSETEDGE
    (Event None) (Event None) (Event None) (Event None) (Event None)
    SC_ZERO_TIME 0 0 SC_ZERO_TIME.

(** Modelled from the spec: the bookkeeping shared by the mutators, missing
    with them.  Each "records the current elapsed cycle count into
    cycleBaseCount, updates lastFrequencyChangeTime to now, increments
    frequencyChangeCount". *)
Definition record_change (now : sc_time) (c : no_clock) : no_clock :=
  mk_no_clock (m_clock_name c) (m_tPERIOD c) (m_duty c) (m_tOFFSET c)
    (m_tPOSEDGE c) (m_tNEGEDGE c) (m_posedge c) (m_tSAMPLE c) (m_tSETEDGE c)
    (m_anyedge_event c) (m_posedge_event c) (m_negedge_event c)
    (m_sample_event c) (m_setedge_event c)
    now (wrap64 (m_freq_count c + 1)) (cycles c now) (m_tSHIFT c).

(** Modelled from the spec: the application of new parameters, after which
    a mutator "recomputes derived edge offsets". *)
Definition reconfigure (c : no_clock) (tPERIOD : sc_time) (duty : Q)
    (tOFFSET tSAMPLE tSETEDGE : sc_time) : no_clock :=
  let edges := derive_edges tPERIOD duty tOFFSET (m_posedge c) in
  mk_no_clock (m_clock_name c) tPERIOD duty tOFFSET (fst edges) (snd edges)
    (m_posedge c) tSAMPLE tSETEDGE
    (m_anyedge_event c) (m_posedge_event c) (m_negedge_event c)
    (m_sample_event c) (m_setedge_event c)
    (m_frequency_set c) (m_freq_count c) (m_base_count c) (m_tSHIFT c).

(** Modelled from the spec: [set_period_time], missing from the header.  A
    period that is not positive is a configuration error, "rejected at the
    mutator" with "no partial mutation"; [None] is the rejection. *)
Definition set_period_time (now : sc_time) (tPERIOD : sc_time) (c : no_clock)
    : option no_clock :=
  if 0 <? tPERIOD then
    let c' := record_change now c in
    Some (reconfigure c' tPERIOD (m_duty c') (m_tOFFSET c') (m_tSAMPLE c')
            (m_tSETEDGE c'))
  else None.

(** Modelled from the spec: [set_frequency], missing from the header.
    "setFrequency is setPeriod(1/f)". *)
Definition set_frequency (now : sc_time) (frequency : Q) (c : no_clock)
    : option no_clock :=
  if Qle_bool frequency 0 then None
  else set_period_time now
         (sc_time_of_seconds (ddiv (double_of_Z 1) (double_of_Q frequency))) c.

(** Modelled from the spec: [set_offset_time], missing from the header.  A
    landmark offset outside a period is a configuration error. *)
Definition set_offset_time (now : sc_time) (tOFFSET : sc_time) (c : no_clock)
    : option no_clock :=
  if tOFFSET <? m_tPERIOD c then
    let c' := record_change now c in
    Some (reconfigure c' (m_tPERIOD c') (m_duty c') tOFFSET (m_tSAMPLE c')
            (m_tSETEDGE c'))
  else None.

(** Modelled from the spec: [set_duty_cycle], missing from the header.  A
    duty cycle outside [0,1] is a configuration error. *)
Definition set_duty_cycle (now : sc_time) (duty : Q) (c : no_clock)
    : option no_clock :=
  if Qle_bool 0 duty && Qle_bool duty 1 then
    let c' := record_change now c in
    Some (reconfigure c' (m_tPERIOD c') duty (m_tOFFSET c') (m_tSAMPLE c')
            (m_tSETEDGE c'))
  else None.

(** Modelled from the spec: [set_sample_time], missing from the header. *)
Definition set_sample_time (now : sc_time) (tSAMPLE : sc_time) (c : no_clock)
    : option no_clock :=
  if tSAMPLE <? m_tPERIOD c then
    let c' := record_change now c in
    Some (reconfigure c' (m_tPERIOD c') (m_duty c') (m_tOFFSET c') tSAMPLE
            (m_tSETEDGE c'))
  else None.

(** Modelled from the spec: [set_setedge_time], missing from the header. *)
Definition set_setedge_time (now : sc_time) (tSETEDGE : sc_time) (c : no_clock)
    : option no_clock :=
  if tSETEDGE <? m_tPERIOD c then
    let c' := record_change now c in
    Some (reconfigure c' (m_tPERIOD c') (m_duty c') (m_tOFFSET c')
            (m_tSAMPLE c') tSETEDGE)
  else None.

(** *** The registry of global clocks *)

(** [no_clock*]: the address of an object allocated by [new no_clock]. *)
Abbreviation no_clock_ptr := positive (only parsing).

(** The allocated objects and the static member [s_global], a
    [std::map<const char*, no_clock*>]. *)
Record program : Type := mk_program {
  objects : gmap no_clock_ptr no_clock;
  s_global : gmap c_str no_clock_ptr
}.

(** Modelled from the spec: the accessor [global] with the configuration
    arguments, missing from the header.  "if name already registered,
    returns the existing Clock Model unchanged ...; otherwise constructs a
    new Clock Model, registers it under name, and returns it." *)
Definition global (clock_name : c_str) (tPERIOD : sc_time) (duty : Q)
    (tOFFSET tSAMPLE tSETEDGE : sc_time) (positive : bool) (st : program)
    : no_clock_ptr * program :=
  match s_global st !! clock_name with
  | Some ptr => (ptr, st)
  | None =>
      let ptr := fresh (dom (objects st)) in
      let clk := no_clock_ctor clock_name tPERIOD duty tOFFSET tSAMPLE
                   tSETEDGE positive in
      (ptr, mk_program (<[ptr := clk]> (objects st))
                       (<[clock_name := ptr]> (s_global st)))
  end.

(** Modelled from the spec: the accessor [global] by name only, missing
    from the header.  It "returns the previously registered Clock Model";
    a name that was never registered is a usage error, here [None]. *)
Definition global_by_name (clock_name : c_str) (st : program)
    : option no_clock_ptr :=
  s_global st !! clock_name.

(** ** Runs of a clock

    Between two calls the scheduler advances the simulated time; a call of
    a mutator changes the clock at the current time.  A clock starts from
    its constructor, with a positive period. *)

Inductive clock_step : no_clock * sc_time -> no_clock * sc_time -> Prop :=
| step_time c now t :
    0 <= t -> clock_step (c, now) (c, now + t)
| step_set_time_shift c now tSHIFT :
    0 <= tSHIFT -> clock_step (c, now) (set_time_shift tSHIFT c, now)
| step_set_period_time c c' now tPERIOD :
    set_period_time now tPERIOD c = Some c' -> clock_step (c, now) (c', now)
| step_set_frequency c c' now f :
    set_frequency now f c = Some c' -> clock_step (c, now) (c', now)
| step_set_offset_time c c' now tOFFSET :
    set_offset_time now tOFFSET c = Some c' -> clock_step (c, now) (c', now)
| step_set_duty_cycle c c' now d :
    set_duty_cycle now d c = Some c' -> clock_step (c, now) (c', now)
| step_set_sample_time c c' now tSAMPLE :
    set_sample_time now tSAMPLE c = Some c' -> clock_step (c, now) (c', now)
| step_set_setedge_time c c' now tSETEDGE :
    set_setedge_time now tSETEDGE c = Some c' -> clock_step (c, now) (c', now).

Inductive reachable : no_clock * sc_time -> Prop :=
| reachable_ctor clock_instance tPERIOD d tOFFSET tSAMPLE tSETEDGE pos now :
    0 < tPERIOD -> 0 <= now ->
    reachable
      (no_clock_ctor clock_instance tPERIOD d tOFFSET tSAMPLE tSETEDGE pos, now)
| reachable_step x y :
    reachable x -> clock_step x y -> reachable y.

(** What every run preserves: the last change of frequency is not in the
    future, and the counters hold what their types can hold. *)
Definition clock_inv (x : no_clock * sc_time) : Prop :=
  let (c, now) := x in
  0 < m_tPERIOD c /\
  0 <= m_frequency_set c <= now /\
  0 <= m_tSHIFT c /\
  0 <= m_base_count c < 2 ^ 32 /\
  0 <= m_freq_count c.

(** ** Example clocks

    The first clock drawn in the header's introduction, in picoseconds, a
    program in which nothing is registered and one in which that clock
    is. *)

Definition ns : sc_time := 1000.

Definition CLK1 : no_clock :=
  mk_no_clock 7 (10 * ns) (1 # 2) 0 0 (5 * ns) true (1 * ns) (5 * ns)
    (Event None) (Event None) (Event None) (Event None) (Event None)
    SC_ZERO_TIME 0 0 SC_ZERO_TIME.

(** A clock of period 12 ns whose sample point is set to the period. *)
Definition CLK_12ns : no_clock :=
  mk_no_clock 8 (12 * ns) (1 # 2) 0 0 (6 * ns) true (12 * ns) (6 * ns)
    (Event None) (Event None) (Event None) (Event None) (Event None)
    SC_ZERO_TIME 0 0 SC_ZERO_TIME.

(** A clock of period [2 ^ 30] resolution units. *)
Definition CLK_2_30 : no_clock :=
  mk_no_clock 9 (2 ^ 30) (1 # 2) 0 0 (2 ^ 29) true 0 (2 ^ 29)
    (Event None) (Event None) (Event None) (Event None) (Event None)
    SC_ZERO_TIME 0 0 SC_ZERO_TIME.

(** A clock of period 9 ps. *)
Definition CLK_9ps : no_clock :=
  mk_no_clock 11 9 (1 # 2) 0 0 5 true 0 5
    (Event None) (Event None) (Event None) (Event None) (Event None)
    SC_ZERO_TIME 0 0 SC_ZERO_TIME.

(** A clock whose rising and falling edges have the same offset. *)
Definition CLK_flat : no_clock :=
  mk_no_clock 10 (10 * ns) 0 (2 * ns) (2 * ns) (2 * ns) true (1 * ns) (5 * ns)
    (Event None) (Event None) (Event None) (Event None) (Event None)
    SC_ZERO_TIME 0 0 SC_ZERO_TIME.

Definition empty_program : program := mk_program ∅ ∅.

(** A program in which the first example clock is registered under the
    name at address 7. *)
Definition one_clock_program : program :=
  mk_program {[1%positive := CLK1]} {[7 := 1%positive]}.

(** ** Properties used in the statements *)

(** The bookkeeping of a change of configuration made at [now], between the
    clock [c] before the call and the clock [c'] after it. *)
Definition change_recorded (now : sc_time) (c c' : no_clock) : Prop :=
  m_base_count c' = cycles c now /\
  m_frequency_set c' = now /\
  m_freq_count c' = m_freq_count c + 1.

(** The report of a negative difference under the default policy. *)
Definition negative_diff_warning (file : string) (lnum : Z) : sc_report :=
  mk_report SC_WARNING "time_diff"
    "Negative time calculation returning SC_ZERO_TIME" file lnum.

(** The report of a negative difference when [INVERT_NEGATIVE] is
    defined. *)
Definition inverted_diff_warning (file : string) (lnum : Z) : sc_report :=
  mk_report SC_WARNING "time_diff"
    "Negative time calculation returning the negative difference" file lnum.

(** ** The event accessors

    Each accessor waits for its landmark, notifies the event of that
    landmark with [notify(SC_ZERO_TIME)] and returns a reference to it
    (lines 461-499).  The argument is a [size_t] and the wait takes an
    [unsigned int]. *)

(** [sc_event::notify(SC_ZERO_TIME)]: whatever was pending, the event is
    now notified in the next delta cycle. *)
Definition notify_zero (e : sc_event) : sc_event := Event (Some SC_ZERO_TIME).

(** The clock after the call and the time at which the call returns; the
    reference returned is the member [m_posedge_event] of that clock. *)
Definition posedge_event (c : no_clock) (now : sc_time) (events : Z)
    : no_clock * sc_time :=
  let now' := wait_posedge c now (wrap32 events) in
  (mk_no_clock (m_clock_name c) (m_tPERIOD c) (m_duty c) (m_tOFFSET c)
     (m_tPOSEDGE c) (m_tNEGEDGE c) (m_posedge c) (m_tSAMPLE c) (m_tSETEDGE c)
     (m_anyedge_event c) (notify_zero (m_posedge_event c)) (m_negedge_event c)
     (m_sample_event c) (m_setedge_event c)
     (m_frequency_set c) (m_freq_count c) (m_base_count c) (m_tSHIFT c),
   now').

Definition negedge_event (c : no_clock) (now : sc_time) (events : Z)
    : no_clock * sc_time :=
  let now' := wait_negedge c now (wrap32 events) in
  (mk_no_clock (m_clock_name c) (m_tPERIOD c) (m_duty c) (m_tOFFSET c)
     (m_tPOSEDGE c) (m_tNEGEDGE c) (m_posedge c) (m_tSAMPLE c) (m_tSETEDGE c)
     (m_anyedge_event c) (m_posedge_event c) (notify_zero (m_negedge_event c))
     (m_sample_event c) (m_setedge_event c)
     (m_frequency_set c) (m_freq_count c) (m_base_count c) (m_tSHIFT c),
   now').

Definition sample_event (c : no_clock) (now : sc_time) (events : Z)
    : no_clock * sc_time :=
  let now' := wait_sample c now (wrap32 events) in
  (mk_no_clock (m_clock_name c) (m_tPERIOD c) (m_duty c) (m_tOFFSET c)
     (m_tPOSEDGE c) (m_tNEGEDGE c) (m_posedge c) (m_tSAMPLE c) (m_tSETEDGE c)
     (m_anyedge_event c) (m_posedge_event c) (m_negedge_event c)
     (notify_zero (m_sample_event c)) (m_setedge_event c)
     (m_frequency_set c) (m_freq_count c) (m_base_count c) (m_tSHIFT c),
   now').

Definition setedge_event (c : no_clock) (now : sc_time) (events : Z)
    : no_clock * sc_time :=
  let now' := wait_setedge c now (wrap32 events) in
  (mk_no_clock (m_clock_name c) (m_tPERIOD c) (m_duty c) (m_tOFFSET c)
     (m_tPOSEDGE c) (m_tNEGEDGE c) (m_posedge c) (m_tSAMPLE c) (m_tSETEDGE c)
     (m_anyedge_event c) (m_posedge_event c) (m_negedge_event c)
     (m_sample_event c) (notify_zero (m_setedge_event c))
     (m_frequency_set c) (m_freq_count c) (m_base_count c) (m_tSHIFT c),
   now').

Definition value_changed_event (c : no_clock) (now : sc_time) (events : Z)
    : no_clock * sc_time :=
  let now' := wait_anyedge c now (wrap32 events) in
  (mk_no_clock (m_clock_name c) (m_tPERIOD c) (m_duty c) (m_tOFFSET c)
     (m_tPOSEDGE c) (m_tNEGEDGE c) (m_posedge c) (m_tSAMPLE c) (m_tSETEDGE c)
     (notify_zero (m_anyedge_event c)) (m_posedge_event c) (m_negedge_event c)
     (m_sample_event c) (m_setedge_event c)
     (m_frequency_set c) (m_freq_count c) (m_base_count c) (m_tSHIFT c),
   now').

Definition default_event (c : no_clock) (now : sc_time) (events : Z)
    : no_clock * sc_time :=
  value_changed_event c now events.

(** ** Arithmetic of the embedding *)

Lemma wrap64_small (z : Z) : 0 <= z < 2 ^ 64 -> wrap64 z = z.
Proof. apply Z.mod_small. Qed.

Lemma wrap32_small (z : Z) : 0 <= z < 2 ^ 32 -> wrap32 z = z.
Proof. apply Z.mod_small. Qed.

Lemma wrap64_range (z : Z) : 0 <= wrap64 z < 2 ^ 64.
Proof. apply Z.mod_pos_bound. lia. Qed.

(** *** The conversion of a 64-bit count to double is finite *)

Lemma digits2_pos_size (p : positive) : digits2_pos p = Pos.size p.
Proof. induction p; simpl; congruence. Qed.

Lemma Zdigits2_bound (z k : Z) :
  0 <= k -> 0 <= z < 2 ^ k -> 0 <= Zdigits2 z <= k.
Proof.
  intros Hk Hz. destruct z as [|q|q]; simpl; [lia| |lia].
  rewrite digits2_pos_size. split; [lia|].
  pose proof (Pos.size_le q) as Hle.
  apply Pos2Z.pos_le_pos in Hle. rewrite Pos2Z.inj_pow in Hle.
  change (Z.pos q~0) with (2 * Z.pos q) in Hle.
  destruct (Z.le_gt_cases (Z.pos (Pos.size q)) k) as [|Hgt]; [assumption|].
  exfalso.
  assert (2 ^ (k + 1) <= 2 ^ Z.pos (Pos.size q)) by (apply Z.pow_le_mono_r; lia).
  rewrite Z.pow_add_r in H by lia. lia.
Qed.

Lemma shr_1_bounds (mrs : shr_record) :
  0 <= shr_m mrs -> 0 <= shr_m (shr_1 mrs) <= shr_m mrs.
Proof.
  destruct mrs as [m r s]. simpl.
  destruct m as [|[p|p|]|p]; simpl; lia.
Qed.

Lemma iter_shr_1_bounds (p : positive) (mrs : shr_record) :
  0 <= shr_m mrs -> 0 <= shr_m (SpecFloat.iter_pos shr_1 p mrs) <= shr_m mrs.
Proof.
  revert mrs. induction p as [p IH|p IH|]; intros mrs H; simpl.
  - pose proof (shr_1_bounds mrs H) as H1.
    pose proof (IH _ (proj1 H1)) as H2.
    pose proof (IH _ (proj1 H2)) as H3. lia.
  - pose proof (IH _ H) as H2.
    pose proof (IH _ (proj1 H2)) as H3. lia.
  - apply shr_1_bounds. assumption.
Qed.

Lemma shr_bounds (mrs : shr_record) (e n : Z) :
  0 <= shr_m mrs ->
  0 <= shr_m (fst (shr mrs e n)) <= shr_m mrs /\
  (snd (shr mrs e n) = e \/ snd (shr mrs e n) = e + n).
Proof.
  intros H. unfold shr. destruct n as [|p|p]; simpl; try (split; [lia|tauto]).
  split; [apply iter_shr_1_bounds; assumption | tauto].
Qed.

Lemma round_nearest_even_bounds (m : Z) (l : location) :
  m <= round_nearest_even m l <= m + 1.
Proof.
  unfold round_nearest_even.
  destruct l as [|[| |]]; try destruct (Z.even m); lia.
Qed.

(** Rounding a significand below [2 ^ 64] with an exponent that is not
    positive does not overflow. *)
Lemma binary_round_aux_finite (sx : bool) (mx ex : Z) :
  0 <= mx < 2 ^ 64 -> -1074 <= ex <= 0 ->
  is_finite (binary_round_aux prec emax sx mx ex loc_Exact) = true.
Proof.
  intros Hm He. unfold binary_round_aux, shr_fexp.
  simpl (shr_record_of_loc mx loc_Exact).
  pose proof (shr_bounds {| shr_m := mx; shr_r := false; shr_s := false |} ex
                (fexp prec emax (Zdigits2 mx + ex) - ex)) as H1.
  simpl (shr_m {| shr_m := mx |}) in H1. specialize (H1 (proj1 Hm)).
  destruct (shr _ ex _) as [mrs' e']. simpl fst in H1. simpl snd in H1.
  destruct H1 as [Hm' He'].
  pose proof (Zdigits2_bound mx 64 ltac:(lia) Hm) as Hd.
  assert (-1074 <= e' <= 11) as He'b.
  { unfold fexp, emin, prec, emax in He'. lia. }
  pose proof (round_nearest_even_bounds (shr_m mrs') (loc_of_shr_record mrs')) as Hr.
  set (r := round_nearest_even (shr_m mrs') (loc_of_shr_record mrs')) in *.
  simpl (shr_record_of_loc r loc_Exact).
  pose proof (shr_bounds {| shr_m := r; shr_r := false; shr_s := false |} e'
                (fexp prec emax (Zdigits2 r + e') - e')) as H2.
  simpl (shr_m {| shr_m := r |}) in H2. specialize (H2 ltac:(lia)).
  destruct (shr _ e' _) as [mrs'' e'']. simpl fst in H2. simpl snd in H2.
  destruct H2 as [Hm'' He''].
  assert (0 <= r < 2 ^ 65) as Hrb by lia.
  pose proof (Zdigits2_bound r 65 ltac:(lia) Hrb) as Hd'.
  assert (e'' <= 23) as He''b.
  { unfold fexp, emin, prec, emax in He''. lia. }
  destruct (shr_m mrs'') as [|q|q]; [reflexivity| |lia].
  replace (e'' <=? emax - prec) with true; [reflexivity|].
  symmetry. apply Z.leb_le. unfold emax, prec. lia.
Qed.

Lemma iter_xO_pow2 (k p : positive) :
  Z.pos (Pos.iter xO p k) = Z.pos p * 2 ^ Z.pos k.
Proof.
  revert p. induction k as [|k IH] using Pos.peano_ind; intros p.
  - simpl. lia.
  - rewrite Pos.iter_succ. rewrite Pos2Z.inj_succ, Z.pow_succ_r by lia.
    change (Z.pos (Pos.iter xO p k)~0) with (2 * Z.pos (Pos.iter xO p k)).
    rewrite IH. lia.
Qed.

(** The double nearest to a 64-bit count is finite. *)
Lemma double_of_Z_finite (m : Z) :
  0 <= m < 2 ^ 64 -> is_finite (double_of_Z m) = true.
Proof.
  intros Hm. unfold double_of_Z, binary_normalize.
  destruct m as [|p|p]; [reflexivity| |lia].
  unfold binary_round.
  pose proof (Zdigits2_bound (Z.pos p) 64 ltac:(lia) Hm) as Hd.
  simpl Zdigits2 in Hd.
  assert (fexp prec emax (Z.pos (digits2_pos p) + 0)
          = Z.pos (digits2_pos p) - 53) as ->
    by (unfold fexp, emin, prec, emax; lia).
  unfold shl_align. rewrite Z.sub_0_r.
  destruct (Z.pos (digits2_pos p) - 53) as [|k|k] eqn:Ek.
  - apply binary_round_aux_finite; lia.
  - apply binary_round_aux_finite; lia.
  - apply binary_round_aux_finite; [|lia].
    rewrite iter_xO_pow2. split; [lia|].
    pose proof (Pos.size_gt p) as Hgt.
    apply Pos2Z.pos_lt_pos in Hgt. rewrite Pos2Z.inj_pow in Hgt.
    rewrite <- digits2_pos_size in Hgt.
    assert (Z.pos (digits2_pos p) + Z.pos k = 53) as E53 by lia.
    assert (Z.pos p * 2 ^ Z.pos k < 2 ^ 53).
    { rewrite <- E53. rewrite Z.pow_add_r by lia.
      apply Z.mul_lt_mono_pos_r; lia. }
    lia.
Qed.

Lemma uint64_to_double_finite (m : Z) : is_finite (uint64_to_double m) = true.
Proof. apply double_of_Z_finite. apply wrap64_range. Qed.

(** No cycle times any period is the zero time: the product with the double
    zero is zero, one half is added, and the conversion truncates. *)
Lemma time_scale_zero (t : sc_time) : time_scale (of_uint 0) t = 0.
Proof.
  unfold time_scale. pose proof (uint64_to_double_finite t) as H.
  destruct (uint64_to_double t) as [s| s| |s m e];
    [reflexivity | discriminate | discriminate | reflexivity].
Qed.

Lemma time_scale_range (d : double) (t : sc_time) :
  0 <= time_scale d t < 2 ^ 64.
Proof. unfold time_scale. apply wrap64_range. Qed.

(** ** The delay to a landmark *)

Lemma delay_nonneg (now p o s : sc_time) : 0 <= delay now p o s.
Proof.
  unfold delay.
  destruct (_ =? _); [unfold SC_ZERO_TIME; lia|].
  destruct (_ <? _); apply wrap64_range.
Qed.

Lemma delay_range (now p o s : sc_time) : 0 <= delay now p o s < 2 ^ 64.
Proof.
  unfold delay.
  destruct (_ =? _); [unfold SC_ZERO_TIME; lia|].
  destruct (_ <? _); apply wrap64_range.
Qed.

(** With no further cycle an until query is the delay itself. *)
Lemma until_zero_cycles (p d : sc_time) :
  0 <= d < 2 ^ 64 -> time_add (time_scale (of_uint 0) p) d = d.
Proof.
  intros Hd. rewrite time_scale_zero. unfold time_add. simpl.
  apply wrap64_small. assumption.
Qed.

(** Outputs of the header at 42 ns for a period of 10 ns. *)
Example delay_at_42ns :
  delay (42 * ns) (10 * ns) 0 0 = 8 * ns /\
  delay (42 * ns) (10 * ns) (1 * ns) 0 = 9 * ns /\
  delay (42 * ns) (10 * ns) (3 * ns) 0 = 1 * ns.
Proof. vm_compute. auto. Qed.

(** C1.  Thirty seconds after the start, a clock of period 10 ns is on the
    landmark of offset zero: three thousand million periods have elapsed
    exactly.  The quotient of the two times in seconds does not fit the
    [int] to which [operator %] converts it, the remainder comes out as
    51.47483648 s, and [delay] returns the period minus that remainder on
    the 64-bit count, which is neither zero nor below the period. *)
Theorem delay_beyond_the_range_of_int :
  (30 * 10 ^ 12 + 0) mod (10 * ns) = 0 /\
  time_rem (time_add (30 * 10 ^ 12) 0) (10 * ns) = 51474836480000 /\
  delay (30 * 10 ^ 12) (10 * ns) 0 0 = 18446692598873081616 /\
  ~ (0 <= delay (30 * 10 ^ 12) (10 * ns) 0 0 < 10 * ns).
Proof.
  assert (delay (30 * 10 ^ 12) (10 * ns) 0 0 = 18446692598873081616) as E
    by (vm_compute; reflexivity).
  rewrite E. repeat split; try (vm_compute; reflexivity).
  unfold ns. lia.
Qed.

(** ** The remainder *)

(** C4.  The remainder of 492 ns by 12 ns, forty-one periods exactly, is
    12 ns, the whole period: the quotient of the two doubles is just below
    41 and [int] truncates it to 40.  The remainder of 30 s by 10 ns is
    51.47483648 s: the quotient does not fit [int].  Neither lies in
    [[0, p)]. *)
Theorem remainder_outside_the_period :
  492 * ns = 41 * (12 * ns) /\
  time_rem (492 * ns) (12 * ns) = 12 * ns /\
  30 * 10 ^ 12 = 3000000000 * (10 * ns) /\
  time_rem (30 * 10 ^ 12) (10 * ns) = 51474836480000.
Proof. repeat split; vm_compute; reflexivity. Qed.

(** Further outputs of [operator %]: small operands, and two counts above
    [2 ^ 50] whose passage through seconds changes the remainder by one. *)
Example remainder_outputs :
  time_rem (5 * ns) (10 * ns) = 5 * ns /\
  time_rem (20 * ns) (10 * ns) = 0 /\
  time_rem (42 * ns) (10 * ns) = 2 * ns /\
  time_rem (30 * 10 ^ 12 + 8 * ns) (10 * ns) = 51474836488000 /\
  time_rem 2060886047301688 2060886047307688 = 2060886047301689.
Proof. repeat split; vm_compute; reflexivity. Qed.

(** ** The until and next queries *)

(** The scenarios of the header's first clock at 0 ns and at 8 ns. *)
Example CLK1_at_0ns :
  until_posedge CLK1 0 0 = 0 /\ until_negedge CLK1 0 0 = 5 * ns /\
  until_sample CLK1 0 0 = 1 * ns /\ until_setedge CLK1 0 0 = 5 * ns /\
  read CLK1 0 = false /\ next_posedge CLK1 0 0 = 10 * ns.
Proof. vm_compute. repeat split. Qed.

Example CLK1_at_8ns :
  until_posedge CLK1 (8 * ns) 0 = 2 * ns /\
  next_posedge CLK1 (8 * ns) 0 = 2 * ns /\
  until_posedge CLK1 (8 * ns) 1 = 12 * ns.
Proof. vm_compute. repeat split. Qed.

(** The product of a cycle count and a period is a product of doubles, and
    is rounded above [2 ^ 53]; beyond [2 ^ 31] periods the queries carry the
    remainder of C1. *)
Example query_outputs :
  time_scale (of_uint 4000000001) 3000001 = 12000004003000000 /\
  4000000001 * 3000001 = 12000004003000001 /\
  until_negedge CLK1 (8 * ns + 30 * 10 ^ 12) 0 = 18446692598873078616 /\
  until_sample CLK_12ns (492 * ns) 0 = 0 /\
  at_sample_time CLK_12ns (492 * ns) = true.
Proof. repeat split; vm_compute; reflexivity. Qed.

(** C5.  On a landmark, a next query for 4294967295 further cycles returns
    the zero time: the sum of the cycles and the one added for the zero
    delay is an [unsigned int] and wraps to zero.  This holds for the four
    queries of a single landmark. *)
Theorem next_queries_return_zero :
  delay 0 (m_tPERIOD CLK1) (m_tPOSEDGE CLK1) (m_tSHIFT CLK1) = SC_ZERO_TIME /\
  next_posedge CLK1 0 4294967295 = SC_ZERO_TIME /\
  next_negedge CLK1 (5 * ns) 4294967295 = SC_ZERO_TIME /\
  next_sample CLK1 (1 * ns) 4294967295 = SC_ZERO_TIME /\
  next_setedge CLK1 (5 * ns) 4294967295 = SC_ZERO_TIME.
Proof. repeat split; vm_compute; reflexivity. Qed.

(** ** Polling *)

(** Each of the first four predicates tests the until query of its own
    landmark. *)
Lemma at_time_tests_own_query (c : no_clock) (now : sc_time) :
  (at_posedge_time c now = true <-> until_posedge c now 0 = SC_ZERO_TIME) /\
  (at_negedge_time c now = true <-> until_negedge c now 0 = SC_ZERO_TIME) /\
  (at_anyedge_time c now = true <-> until_anyedge c now 0 = SC_ZERO_TIME) /\
  (at_sample_time c now = true <-> until_sample c now 0 = SC_ZERO_TIME).
Proof.
  unfold at_posedge_time, at_negedge_time, at_anyedge_time, at_sample_time.
  repeat split; intros H; try (apply Z.eqb_eq in H; exact H);
    apply Z.eqb_eq; exact H.
Qed.

(** [at_setedge_time] tests the sample landmark (line 457). *)
Lemma at_setedge_time_is_at_sample_time (c : no_clock) (now : sc_time) :
  at_setedge_time c now = at_sample_time c now.
Proof. reflexivity. Qed.

(** C3.  The header's [at_setedge_time] is not [until_setedge(0) == 0]:
    on the first example clock, whose set-edge landmark is at 5 ns and
    whose sample landmark is at 1 ns, it answers no at 5 ns, on the
    set-edge landmark, and yes at 1 ns, four nanoseconds before it. *)
Theorem at_setedge_time_misses_setedge :
  until_setedge CLK1 (5 * ns) 0 = SC_ZERO_TIME /\
  at_setedge_time CLK1 (5 * ns) = false /\
  until_setedge CLK1 (1 * ns) 0 = 4 * ns /\
  at_setedge_time CLK1 (1 * ns) = true.
Proof. vm_compute. repeat split. Qed.

(** ** The logical value *)

Lemma until_negedge_nonneg (c : no_clock) (now : sc_time) (n : Z) :
  0 <= until_negedge c now n.
Proof. unfold until_negedge, time_add. apply wrap64_range. Qed.

(** C10.  At the instant of a falling edge that is not also a rising edge
    [read] answers true; at the instant of a rising edge it answers
    false. *)
Theorem read_at_the_edges (c : no_clock) (now : sc_time) :
  (until_negedge c now 0 = SC_ZERO_TIME ->
   SC_ZERO_TIME < until_posedge c now 0 -> read c now = true) /\
  (until_posedge c now 0 = SC_ZERO_TIME -> read c now = false).
Proof.
  unfold read, SC_ZERO_TIME. split.
  - intros Hn Hp. rewrite Hn. apply Z.ltb_lt. exact Hp.
  - intros Hp. rewrite Hp. apply Z.ltb_ge. apply until_negedge_nonneg.
Qed.

Lemma read_at_the_edges_witness :
  read CLK1 (5 * ns) = true /\ read CLK1 (10 * ns) = false.
Proof.
  split.
  - apply (proj1 (read_at_the_edges CLK1 (5 * ns))); vm_compute; reflexivity.
  - apply (proj2 (read_at_the_edges CLK1 (10 * ns))); vm_compute; reflexivity.
Defined.

(** ** The safe difference *)

(** C7.  [sc_core_time_diff a b] is [a - b] when [a >= b].  When [a < b]
    the default policy logs one warning and returns [SC_ZERO_TIME]; under
    either policy the call returns, and what it returns is not negative. *)
Theorem time_diff_clamps {St : Type} (a b : sc_time) (file : string)
    (lnum : Z) (w : St * list sc_report) :
  0 <= b -> a < 2 ^ 64 ->
  (b <= a ->
   sc_core_time_diff false a b file lnum w = (Returned (a - b), w)) /\
  (a < b ->
   sc_core_time_diff false a b file lnum w
   = (Returned SC_ZERO_TIME,
      (fst w, snd w ++ [negative_diff_warning file lnum])) /\
   rep_severity (negative_diff_warning file lnum) = SC_WARNING) /\
  (forall INVERT_NEGATIVE, exists v w',
     sc_core_time_diff INVERT_NEGATIVE a b file lnum w = (Returned v, w') /\
     0 <= v).
Proof.
  intros Hb Ha. unfold sc_core_time_diff. repeat split_and.
  - intros Hle. destruct (Z.geb_spec a b) as [_|Hlt]; [|lia].
    unfold ret, time_sub. rewrite wrap64_small by lia. reflexivity.
  - intros Hlt. destruct (Z.geb_spec a b) as [Hge|_]; [lia|].
    split; reflexivity.
  - intros inv. destruct (Z.geb_spec a b) as [Hge|Hlt].
    + eexists _, _. split; [reflexivity|]. apply wrap64_range.
    + destruct inv.
      * eexists _, _. split; [reflexivity|]. apply wrap64_range.
      * eexists _, _. split; [reflexivity|]. unfold SC_ZERO_TIME. lia.
Qed.

Lemma time_diff_clamps_witness :
  sc_core_time_diff false (3 * ns) (5 * ns) "test.cpp" 7 (tt, [])
  = (Returned SC_ZERO_TIME, (tt, [negative_diff_warning "test.cpp" 7])) /\
  sc_core_time_diff false (5 * ns) (3 * ns) "test.cpp" 7 (tt, [])
  = (Returned (2 * ns), (tt, [])).
Proof.
  split.
  - apply (time_diff_clamps (3 * ns) (5 * ns) "test.cpp" 7 (tt, []));
      unfold ns; lia.
  - apply (time_diff_clamps (5 * ns) (3 * ns) "test.cpp" 7 (tt, []));
      unfold ns; lia.
Defined.

(** ** Writing to a clock *)

(** C8.  [write] logs an error, does not return to its caller, and leaves
    the clock as it found it. *)
Theorem write_is_rejected (v : bool) (c : no_clock) (log : list sc_report) :
  exists r,
    write v (c, log) = (Thrown r, (c, log ++ [r])) /\
    rep_severity r = SC_ERROR.
Proof. eexists. split; reflexivity. Qed.

(** ** The cycle count *)

(** C2.  After [2 ^ 32] periods [cycles] is zero again: the count is kept
    in an [unsigned long] and returned as an [unsigned int].  The number of
    periods is the quotient of two doubles: for a period of [2 ^ 30] units
    at the time [2 ^ 60 - 1] it is [2 ^ 30], one more than the periods that
    have elapsed. *)
Theorem cycles_wraps_and_rounds :
  cycles CLK1 (2 ^ 32 * (10 * ns) - 1) = 4294967295 /\
  cycles CLK1 (2 ^ 32 * (10 * ns)) = 0 /\
  m_base_count CLK1 + (2 ^ 32 * (10 * ns) + 0 - 0) / (10 * ns) = 4294967296 /\
  cycles CLK_2_30 (2 ^ 60 - 1) = 2 ^ 30 /\
  m_base_count CLK_2_30 + (2 ^ 60 - 1 + 0 - 0) / 2 ^ 30 = 2 ^ 30 - 1.
Proof. repeat split; vm_compute; reflexivity. Qed.

(** Outputs of [cycles] and of [clocks] on the first example clock. *)
Example cycles_outputs :
  cycles CLK1 0 = 0 /\ cycles CLK1 (10 * ns) = 1 /\
  cycles CLK1 (25 * ns) = 2 /\ cycles CLK1 (42 * ns) = 4 /\
  clocks (42 * ns) (10 * ns) (5 * ns) 0 = 3.
Proof. repeat split; vm_compute; reflexivity. Qed.

(** [frequency] of a clock of period 9 ps is the double
    111111111111.11111, and its product with the period in seconds is
    [1 + 2 ^ -52]. *)
Example frequency_outputs :
  frequency CLK_9ps = S754_finite false 7281777777777778 (-16) /\
  dmul (frequency CLK_9ps) (to_seconds (m_tPERIOD CLK_9ps))
  = S754_finite false 4503599627370497 (-52) /\
  frequency CLK1 = double_of_Z 100000000.
Proof. repeat split; vm_compute; reflexivity. Qed.

(** *** The cycle count along a run *)

Lemma cycles_range (c : no_clock) (now : sc_time) : 0 <= cycles c now < 2 ^ 32.
Proof. unfold cycles, wrap32. apply Z.mod_pos_bound. lia. Qed.

Lemma set_period_time_Some (now tPERIOD : sc_time) (c c' : no_clock) :
  set_period_time now tPERIOD c = Some c' ->
  0 < tPERIOD /\
  c' = reconfigure (record_change now c) tPERIOD (m_duty c) (m_tOFFSET c)
         (m_tSAMPLE c) (m_tSETEDGE c).
Proof.
  unfold set_period_time. destruct (Z.ltb_spec 0 tPERIOD); [|discriminate].
  intros [= <-]. split; [assumption|reflexivity].
Qed.

Lemma clock_inv_record_change (c : no_clock) (now tPERIOD : sc_time) (d : Q)
    (tOFFSET tSAMPLE tSETEDGE : sc_time) :
  clock_inv (c, now) -> 0 < tPERIOD ->
  clock_inv
    (reconfigure (record_change now c) tPERIOD d tOFFSET tSAMPLE tSETEDGE, now).
Proof.
  intros (Hp & Hz & Hs & Hb & Hf) Hp'. unfold clock_inv. simpl.
  pose proof (cycles_range c now). pose proof (wrap64_range (m_freq_count c + 1)).
  repeat split; lia.
Qed.

Lemma clock_step_inv (x y : no_clock * sc_time) :
  clock_step x y -> clock_inv x -> clock_inv y.
Proof.
  intros Hstep. destruct Hstep as
    [c now t Ht | c now s Hs | c c' now p H | c c' now f H | c c' now o H
    | c c' now d H | c c' now sa H | c c' now se H]; intros Hinv.
  - destruct Hinv as (Hp & Hz & Hrest). unfold clock_inv. repeat split; try tauto; lia.
  - destruct Hinv as (Hp & Hz & _ & Hb & Hf). unfold clock_inv. simpl. tauto.
  - apply set_period_time_Some in H as [Hp ->].
    apply clock_inv_record_change; assumption.
  - unfold set_frequency in H. destruct (Qle_bool f 0); [discriminate|].
    apply set_period_time_Some in H as [Hp ->].
    apply clock_inv_record_change; assumption.
  - unfold set_offset_time in H. destruct (_ <? _); [|discriminate].
    injection H as <-. apply clock_inv_record_change; [assumption|].
    simpl. apply Hinv.
  - unfold set_duty_cycle in H. destruct (_ && _); [|discriminate].
    injection H as <-. apply clock_inv_record_change; [assumption|].
    simpl. apply Hinv.
  - unfold set_sample_time in H. destruct (_ <? _); [|discriminate].
    injection H as <-. apply clock_inv_record_change; [assumption|].
    simpl. apply Hinv.
  - unfold set_setedge_time in H. destruct (_ <? _); [|discriminate].
    injection H as <-. apply clock_inv_record_change; [assumption|].
    simpl. apply Hinv.
Qed.

Lemma reachable_inv (x : no_clock * sc_time) : reachable x -> clock_inv x.
Proof.
  induction 1 as [nm p d o sa se pos now Hp Hnow | x y _ IH Hstep].
  - unfold clock_inv, no_clock_ctor, SC_ZERO_TIME. simpl. lia.
  - eapply clock_step_inv; eassumption.
Qed.

(** The example clocks are clocks that the constructor builds, so every
    time is reached by a run that starts from them. *)
Example example_clocks_are_reachable :
  reachable (CLK1, 2 ^ 32 * (10 * ns)) /\
  reachable (CLK_2_30, 2 ^ 60 - 1).
Proof.
  split.
  - replace CLK1 with (no_clock_ctor 7 (10 * ns) (1 # 2) 0 (1 * ns) (5 * ns) true)
      by (vm_compute; reflexivity).
    apply reachable_ctor; unfold ns; lia.
  - replace CLK_2_30 with (no_clock_ctor 9 (2 ^ 30) (1 # 2) 0 0 (2 ^ 29) true)
      by (vm_compute; reflexivity).
    apply reachable_ctor; lia.
Qed.

(** A change of period made while the temporal shift is not below the new
    period moves the count: three cycles before the call, four after it. *)
Example cycles_moves_across_set_period_time :
  exists c',
    set_period_time (25 * ns) (4 * ns) (set_time_shift (7 * ns) CLK1) = Some c' /\
    cycles (set_time_shift (7 * ns) CLK1) (25 * ns) = 3 /\
    cycles c' (25 * ns) = 4.
Proof. eexists. split; [reflexivity|]. split; vm_compute; reflexivity. Qed.

(** ** The mutators *)

Lemma change_recorded_reconfigure (now : sc_time) (c : no_clock)
    (tPERIOD : sc_time) (d : Q) (tOFFSET tSAMPLE tSETEDGE : sc_time) :
  0 <= m_freq_count c -> m_freq_count c + 1 < 2 ^ 64 ->
  change_recorded now c
    (reconfigure (record_change now c) tPERIOD d tOFFSET tSAMPLE tSETEDGE).
Proof.
  intros Hf Hlt. unfold change_recorded. simpl.
  rewrite wrap64_small by lia. repeat split.
Qed.

(** The edge offsets of a clock of period 12 ns, duty cycle 0.3 and offset
    1 ns whose first edge rises, and the first example clock as its
    constructor builds it. *)
Example derive_edges_12ns :
  derive_edges (12 * ns) (3 # 10) (1 * ns) true = (1 * ns, 4600) /\
  no_clock_ctor 7 (10 * ns) (1 # 2) 0 (1 * ns) (5 * ns) true = CLK1.
Proof. vm_compute. split; reflexivity. Qed.

(** [set_time_shift] on the first example clock at 25 ns: two cycles have
    elapsed, and none of the three records is made. *)
Lemma set_time_shift_records_no_change :
  ~ change_recorded (25 * ns) CLK1 (set_time_shift (1 * ns) CLK1).
Proof.
  unfold change_recorded. intros (_ & _ & H). vm_compute in H. discriminate.
Qed.

(** C6, amended.  A call of [set_frequency], [set_period_time],
    [set_offset_time], [set_duty_cycle], [set_sample_time] or
    [set_setedge_time] that is not rejected records the cycle count of the
    moment of the call in [m_base_count], the current time in
    [m_frequency_set], and adds one to [m_freq_count]; the count is taken
    before the new parameter applies.  [set_time_shift] replaces the
    temporal shift and leaves the three members as they were. *)
Theorem mutators_record_change (now : sc_time) (c : no_clock) :
  0 <= m_freq_count c -> m_freq_count c + 1 < 2 ^ 64 ->
  (forall f c', set_frequency now f c = Some c' -> change_recorded now c c') /\
  (forall t c', set_period_time now t c = Some c' -> change_recorded now c c') /\
  (forall t c', set_offset_time now t c = Some c' -> change_recorded now c c') /\
  (forall d c', set_duty_cycle now d c = Some c' -> change_recorded now c c') /\
  (forall t c', set_sample_time now t c = Some c' -> change_recorded now c c') /\
  (forall t c', set_setedge_time now t c = Some c' -> change_recorded now c c') /\
  (forall t,
     m_tSHIFT (set_time_shift t c) = t /\
     m_base_count (set_time_shift t c) = m_base_count c /\
     m_frequency_set (set_time_shift t c) = m_frequency_set c /\
     m_freq_count (set_time_shift t c) = m_freq_count c).
Proof.
  intros Hf Hlt. repeat split_and.
  - intros f c' H. unfold set_frequency in H.
    destruct (Qle_bool f 0); [discriminate|].
    apply set_period_time_Some in H as [_ ->].
    apply change_recorded_reconfigure; assumption.
  - intros t c' H. apply set_period_time_Some in H as [_ ->].
    apply change_recorded_reconfigure; assumption.
  - intros t c' H. unfold set_offset_time in H.
    destruct (_ <? _); [|discriminate]. injection H as <-.
    apply change_recorded_reconfigure; assumption.
  - intros d c' H. unfold set_duty_cycle in H.
    destruct (_ && _); [|discriminate]. injection H as <-.
    apply change_recorded_reconfigure; assumption.
  - intros t c' H. unfold set_sample_time in H.
    destruct (_ <? _); [|discriminate]. injection H as <-.
    apply change_recorded_reconfigure; assumption.
  - intros t c' H. unfold set_setedge_time in H.
    destruct (_ <? _); [|discriminate]. injection H as <-.
    apply change_recorded_reconfigure; assumption.
  - intros t. repeat split.
Qed.

(** At 25 ns the period of the first example clock is set to 4 ns: the two
    elapsed cycles are carried over. *)
Lemma mutators_record_change_witness :
  exists c',
    set_period_time (25 * ns) (4 * ns) CLK1 = Some c' /\
    change_recorded (25 * ns) CLK1 c' /\
    m_base_count c' = 2 /\ m_freq_count c' = 1 /\ m_tPERIOD c' = 4 * ns.
Proof.
  eexists. split; [reflexivity|]. split.
  - assert (0 <= m_freq_count CLK1) as H0 by (vm_compute; congruence).
    assert (m_freq_count CLK1 + 1 < 2 ^ 64) as H1 by (vm_compute; reflexivity).
    destruct (mutators_record_change (25 * ns) CLK1 H0 H1) as (_ & Hp & _).
    apply (Hp (4 * ns)). reflexivity.
  - vm_compute. repeat split.
Defined.

(** ** The registry *)

(** A call of [global] leaves its name registered under the pointer it
    returns. *)
Lemma global_registers (X : c_str) (tPERIOD : sc_time) (d : Q)
    (tOFFSET tSAMPLE tSETEDGE : sc_time) (pos : bool) (st : program) :
  s_global (global X tPERIOD d tOFFSET tSAMPLE tSETEDGE pos st).2
    !! X
  = Some (global X tPERIOD d tOFFSET tSAMPLE tSETEDGE pos st).1.
Proof.
  unfold global. destruct (s_global st !! X) as [ptr|] eqn:E; simpl.
  - exact E.
  - apply lookup_insert_eq.
Qed.

(** A first registration allocates a clock built from its arguments and
    keeps the objects that exist. *)
Lemma global_fresh (X : c_str) (tPERIOD : sc_time) (d : Q)
    (tOFFSET tSAMPLE tSETEDGE : sc_time) (pos : bool) (st : program) :
  s_global st !! X = None ->
  let r := global X tPERIOD d tOFFSET tSAMPLE tSETEDGE pos st in
  objects st !! r.1 = None /\
  objects r.2 !! r.1
  = Some (no_clock_ctor X tPERIOD d tOFFSET tSAMPLE tSETEDGE pos) /\
  (forall q, q <> r.1 -> objects r.2 !! q = objects st !! q).
Proof.
  intros E r. subst r. unfold global. rewrite E. simpl. repeat split_and.
  - apply not_elem_of_dom. apply is_fresh.
  - apply lookup_insert_eq.
  - intros q Hq. apply lookup_insert_ne. congruence.
Qed.

(** C9.  When the name [X] is registered, [global] with configuration
    arguments returns the registered clock and changes neither the
    registry nor any clock: the arguments are not used. *)
Theorem global_first_registration_wins (X : c_str) (tPERIOD : sc_time)
    (d : Q) (tOFFSET tSAMPLE tSETEDGE : sc_time) (pos : bool)
    (st : program) (ptr : no_clock_ptr) :
  s_global st !! X = Some ptr ->
  global X tPERIOD d tOFFSET tSAMPLE tSETEDGE pos st = (ptr, st).
Proof. intros E. unfold global. rewrite E. reflexivity. Qed.

(** Two calls with the same name and different arguments, in a program
    that may hold further clocks: the second returns the clock of the
    first, and that clock keeps the configuration of the first call. *)
Lemma global_twice (X : c_str) (p1 p2 : sc_time) (d1 d2 : Q)
    (o1 o2 sa1 sa2 se1 se2 : sc_time) (pos1 pos2 : bool) (st : program) :
  s_global st !! X = None ->
  let r1 := global X p1 d1 o1 sa1 se1 pos1 st in
  let r2 := global X p2 d2 o2 sa2 se2 pos2 r1.2 in
  r2.1 = r1.1 /\ r2.2 = r1.2 /\
  objects r2.2 !! r2.1 = Some (no_clock_ctor X p1 d1 o1 sa1 se1 pos1).
Proof.
  intros E r1 r2.
  pose proof (global_registers X p1 d1 o1 sa1 se1 pos1 st) as Hreg.
  fold r1 in Hreg.
  assert (r2 = (r1.1, r1.2)) as Hr2.
  { subst r2. unfold global at 1. rewrite Hreg. reflexivity. }
  rewrite Hr2. simpl. repeat split.
  apply (global_fresh X p1 d1 o1 sa1 se1 pos1 st E).
Qed.

Example global_twice_from_empty :
  let r1 := global 7 (10 * ns) (1 # 2) 0 (1 * ns) (5 * ns) true empty_program in
  let r2 := global 7 (12 * ns) (3 # 10) (1 * ns) (3 * ns) (6 * ns) false r1.2 in
  r1.1 = 1%positive /\ r2.1 = 1%positive /\
  objects r2.2 !! 1%positive = Some CLK1 /\
  global_by_name 7 r2.2 = Some 1%positive /\
  global_by_name 8 r2.2 = None.
Proof. vm_compute. repeat split. Qed.

Lemma global_first_registration_wins_witness :
  s_global one_clock_program !! 7 = Some 1%positive /\
  global 7 (12 * ns) (3 # 10) (1 * ns) (3 * ns) (6 * ns) false
    one_clock_program
  = (1%positive, one_clock_program).
Proof.
  assert (s_global one_clock_program !! 7 = Some 1%positive) as H
    by (vm_compute; reflexivity).
  split; [exact H|].
  apply (global_first_registration_wins 7 (12 * ns) (3 # 10) (1 * ns) (3 * ns)
           (6 * ns) false one_clock_program 1%positive H).
Defined.

(** * Further properties of the header *)

(** ** The any-edge queries *)

Lemma until_anyedge_zero_min (c : no_clock) (now : sc_time) :
  until_anyedge c now 0
  = Z.min (until_negedge c now 0) (until_posedge c now 0).
Proof.
  unfold until_anyedge, read.
  assert (forall x, 0 <= x < 2 ^ 64 ->
            time_add (time_scale (of_uint 0) (m_tPERIOD c)) x = x) as Hx
    by (intros x Hx; apply until_zero_cycles; exact Hx).
  destruct (Z.ltb_spec (until_negedge c now 0) (until_posedge c now 0)).
  - rewrite Hx by (unfold until_negedge, time_add; apply wrap64_range). lia.
  - rewrite Hx by (unfold until_posedge, time_add; apply wrap64_range). lia.
Qed.

Lemma at_anyedge_time_iff (c : no_clock) (now : sc_time) :
  at_anyedge_time c now = true
  <-> at_posedge_time c now = true \/ at_negedge_time c now = true.
Proof.
  unfold at_anyedge_time, at_posedge_time, at_negedge_time, SC_ZERO_TIME.
  rewrite until_anyedge_zero_min, !Z.eqb_eq.
  pose proof (until_negedge_nonneg c now 0).
  assert (0 <= until_posedge c now 0)
    by (unfold until_posedge, time_add; apply wrap64_range).
  lia.
Qed.

(** X2.  With no further cycle [until_anyedge] is the smaller of
    [until_negedge] and [until_posedge], so [at_anyedge_time] holds exactly
    when one of the two edge polls holds.  No condition on the clock is
    needed. *)
Theorem until_anyedge_is_nearer_edge (c : no_clock) (now : sc_time) :
  until_anyedge c now 0
  = Z.min (until_negedge c now 0) (until_posedge c now 0) /\
  (at_anyedge_time c now = true
   <-> at_posedge_time c now = true \/ at_negedge_time c now = true).
Proof.
  split; [apply until_anyedge_zero_min | apply at_anyedge_time_iff].
Qed.

(** ** The next queries against the until queries *)

(** With no further cycle an until query of a landmark is its raw delay. *)
Lemma until_no_cycle_is_delay (p now o s : sc_time) :
  time_add (time_scale (of_uint 0) p) (delay now p o s) = delay now p o s.
Proof. apply until_zero_cycles. apply delay_range. Qed.

(** The shared expression of the [next_*] queries when the raw delay is not
    zero, and when it is. *)
Lemma next_expression_off_landmark (p t : sc_time) (n : Z) :
  0 <= n < 2 ^ 32 -> t <> SC_ZERO_TIME ->
  time_add
    (time_scale (of_uint (wrap32 (n + (if SC_ZERO_TIME =? t then 1 else 0)))) p)
    t
  = time_add (time_scale (of_uint n) p) t.
Proof.
  intros Hn Ht. unfold SC_ZERO_TIME in *.
  destruct (Z.eqb_spec 0 t) as [E|_]; [congruence|].
  rewrite Z.add_0_r, wrap32_small by lia. reflexivity.
Qed.

Lemma next_expression_on_landmark (p t : sc_time) (n : Z) :
  t = SC_ZERO_TIME ->
  time_add
    (time_scale (of_uint (wrap32 (n + (if SC_ZERO_TIME =? t then 1 else 0)))) p)
    t
  = time_scale (of_uint (wrap32 (n + 1))) p.
Proof.
  intros ->. unfold SC_ZERO_TIME. simpl (0 =? 0).
  unfold time_add. rewrite Z.add_0_r. apply wrap64_small. apply time_scale_range.
Qed.

(** X22.  Off a landmark the next query is the until query: whenever the
    until query with no further cycle is not zero, [next_*(n)] and
    [until_*(n)] return the same time, for the five landmarks and every
    [unsigned int] [n]. *)
Theorem next_is_until_off_the_landmark (c : no_clock) (now : sc_time) (n : Z) :
  0 <= n < 2 ^ 32 ->
  (until_posedge c now 0 <> SC_ZERO_TIME ->
   next_posedge c now n = until_posedge c now n) /\
  (until_negedge c now 0 <> SC_ZERO_TIME ->
   next_negedge c now n = until_negedge c now n) /\
  (until_sample c now 0 <> SC_ZERO_TIME ->
   next_sample c now n = until_sample c now n) /\
  (until_setedge c now 0 <> SC_ZERO_TIME ->
   next_setedge c now n = until_setedge c now n) /\
  (until_anyedge c now 0 <> SC_ZERO_TIME ->
   next_anyedge c now n = until_anyedge c now n).
Proof.
  intros Hn.
  assert (0 <= 0 < 2 ^ 32) as H0 by lia.
  repeat split_and.
  - unfold until_posedge, next_posedge. cbv zeta.
    rewrite until_no_cycle_is_delay.
    apply next_expression_off_landmark. exact Hn.
  - unfold until_negedge, next_negedge. cbv zeta.
    rewrite until_no_cycle_is_delay.
    apply next_expression_off_landmark. exact Hn.
  - unfold until_sample, next_sample. cbv zeta.
    rewrite until_no_cycle_is_delay.
    apply next_expression_off_landmark. exact Hn.
  - unfold until_setedge, next_setedge. cbv zeta.
    rewrite until_no_cycle_is_delay.
    apply next_expression_off_landmark. exact Hn.
  - rewrite until_anyedge_zero_min. intros Hmin.
    unfold next_anyedge, until_anyedge, read.
    unfold next_negedge, next_posedge, until_negedge, until_posedge in *.
    cbv zeta.
    rewrite !until_no_cycle_is_delay in *.
    destruct (Z.ltb_spec
                (delay now (m_tPERIOD c) (m_tNEGEDGE c) (m_tSHIFT c))
                (delay now (m_tPERIOD c) (m_tPOSEDGE c) (m_tSHIFT c))).
    + rewrite next_expression_off_landmark by (try exact H0; lia).
      rewrite until_no_cycle_is_delay. reflexivity.
    + rewrite next_expression_off_landmark by (try exact H0; lia).
      rewrite until_no_cycle_is_delay. reflexivity.
Qed.

Lemma next_is_until_off_the_landmark_witness :
  next_posedge CLK1 (8 * ns) 2 = until_posedge CLK1 (8 * ns) 2 /\
  until_posedge CLK1 (8 * ns) 2 = 22 * ns.
Proof.
  split; [|vm_compute; reflexivity].
  assert (0 <= 2 < 2 ^ 32) as Hn by lia.
  destruct (next_is_until_off_the_landmark CLK1 (8 * ns) 2 Hn) as (Hp & _).
  apply Hp. vm_compute. discriminate.
Defined.

(** X23.  On a landmark the next query is a whole number of periods:
    whenever the until query with no further cycle is zero, [next_*(n)] is
    [period(n + 1)], with [n + 1] taken as an [unsigned int]; for the any-edge
    query it is [period(n)] plus [period(1)]. *)
Theorem next_is_periods_on_the_landmark (c : no_clock) (now : sc_time) (n : Z) :
  (until_posedge c now 0 = SC_ZERO_TIME ->
   next_posedge c now n = period c (wrap32 (n + 1))) /\
  (until_negedge c now 0 = SC_ZERO_TIME ->
   next_negedge c now n = period c (wrap32 (n + 1))) /\
  (until_sample c now 0 = SC_ZERO_TIME ->
   next_sample c now n = period c (wrap32 (n + 1))) /\
  (until_setedge c now 0 = SC_ZERO_TIME ->
   next_setedge c now n = period c (wrap32 (n + 1))) /\
  (until_anyedge c now 0 = SC_ZERO_TIME ->
   next_anyedge c now n = time_add (period c n) (period c 1)).
Proof.
  repeat split_and.
  - unfold until_posedge, next_posedge, period. cbv zeta.
    rewrite until_no_cycle_is_delay.
    apply next_expression_on_landmark.
  - unfold until_negedge, next_negedge, period. cbv zeta.
    rewrite until_no_cycle_is_delay.
    apply next_expression_on_landmark.
  - unfold until_sample, next_sample, period. cbv zeta.
    rewrite until_no_cycle_is_delay.
    apply next_expression_on_landmark.
  - unfold until_setedge, next_setedge, period. cbv zeta.
    rewrite until_no_cycle_is_delay.
    apply next_expression_on_landmark.
  - rewrite until_anyedge_zero_min. intros Hmin.
    pose proof (until_negedge_nonneg c now 0) as Hn0.
    assert (0 <= until_posedge c now 0) as Hp0
      by (unfold until_posedge, time_add; apply wrap64_range).
    unfold next_anyedge, read, period.
    unfold next_negedge, next_posedge, until_negedge, until_posedge in *.
    cbv zeta.
    rewrite !until_no_cycle_is_delay in *.
    unfold SC_ZERO_TIME in Hmin.
    destruct (Z.ltb_spec
                (delay now (m_tPERIOD c) (m_tNEGEDGE c) (m_tSHIFT c))
                (delay now (m_tPERIOD c) (m_tPOSEDGE c) (m_tSHIFT c))).
    + rewrite next_expression_on_landmark by (unfold SC_ZERO_TIME; lia).
      reflexivity.
    + rewrite next_expression_on_landmark by (unfold SC_ZERO_TIME; lia).
      reflexivity.
Qed.

Lemma next_is_periods_on_the_landmark_witness :
  next_posedge CLK1 (20 * ns) 2 = period CLK1 (wrap32 (2 + 1)) /\
  period CLK1 (wrap32 (2 + 1)) = 30 * ns.
Proof.
  split; [|vm_compute; reflexivity].
  destruct (next_is_periods_on_the_landmark CLK1 (20 * ns) 2) as (Hp & _).
  apply Hp. vm_compute. reflexivity.
Defined.

(** ** Edges that coincide *)

(** X24.  A clock whose rising and falling edges have the same offset never
    reads high, and its any-edge queries are its rising-edge queries. *)
Theorem coinciding_edges_read_low (c : no_clock) (now : sc_time) (n : Z) :
  m_tPOSEDGE c = m_tNEGEDGE c ->
  read c now = false /\
  until_anyedge c now n = until_posedge c now n /\
  next_anyedge c now n
  = time_add (period c n) (next_posedge c now 0) /\
  at_anyedge_time c now = at_posedge_time c now.
Proof.
  intros E.
  assert (read c now = false) as R.
  { unfold read, until_negedge, until_posedge. rewrite E. apply Z.ltb_irrefl. }
  assert (0 <= until_posedge c now 0 < 2 ^ 64) as Hp
    by (unfold until_posedge, time_add; apply wrap64_range).
  split; [exact R|]. split; [|split].
  - unfold until_anyedge. rewrite R. unfold until_posedge.
    rewrite until_no_cycle_is_delay. reflexivity.
  - unfold next_anyedge, period. rewrite R. reflexivity.
  - unfold at_anyedge_time, at_posedge_time, until_anyedge. rewrite R.
    rewrite (until_zero_cycles _ _ Hp). reflexivity.
Qed.

Lemma coinciding_edges_read_low_witness :
  read CLK_flat (3 * ns) = false /\
  until_anyedge CLK_flat (3 * ns) 1 = until_posedge CLK_flat (3 * ns) 1 /\
  next_anyedge CLK_flat (3 * ns) 1
  = time_add (period CLK_flat 1) (next_posedge CLK_flat (3 * ns) 0) /\
  at_anyedge_time CLK_flat (3 * ns) = at_posedge_time CLK_flat (3 * ns).
Proof.
  apply (coinciding_edges_read_low CLK_flat (3 * ns) 1). reflexivity.
Defined.

(** ** When the delay is zero *)

Lemma time_rem_range (lhs rhs : sc_time) : 0 <= time_rem lhs rhs < 2 ^ 64.
Proof.
  unfold time_rem, sc_time_of_seconds. cbv zeta.
  destruct (is_zero _); [lia | apply wrap64_range].
Qed.

(** X25.  [delay] is zero exactly when [operator %] returns the offset or
    the offset plus one whole period; the second case is what makes the
    delay zero when the remainder of a whole number of periods comes out as
    the period. *)
Theorem delay_is_zero_iff (now p o s : sc_time) :
  0 <= p -> 0 <= o -> p + o < 2 ^ 64 ->
  delay now p o s = SC_ZERO_TIME
  <-> time_rem (time_add now s) p = o \/ time_rem (time_add now s) p = p + o.
Proof.
  intros Hp Ho Hlt. unfold delay. cbv zeta.
  pose proof (time_rem_range (time_add now s) p) as Hr.
  set (r := time_rem (time_add now s) p) in *. unfold SC_ZERO_TIME.
  destruct (Z.eqb_spec r o) as [E|NE]; [tauto|].
  destruct (Z.ltb_spec r o) as [L|G].
  - unfold time_sub. rewrite wrap64_small by lia. lia.
  - unfold time_sub, time_add. rewrite (wrap64_small (p + o)) by lia.
    unfold wrap64.
    destruct (Z.eq_dec r (p + o)) as [E|NE'].
    + rewrite E, Z.sub_diag. simpl. tauto.
    + split; [|lia]. intros H0.
      destruct (Z.lt_ge_cases (p + o - r) 0) as [Hneg|Hpos].
      * assert ((p + o - r) mod 2 ^ 64 = p + o - r + 2 ^ 64) as E'
          by (symmetry; apply (Z.mod_unique_pos _ _ (-1)); lia).
        lia.
      * rewrite Z.mod_small in H0 by lia. lia.
Qed.

Lemma delay_is_zero_iff_witness :
  delay (492 * ns) (12 * ns) 0 0 = SC_ZERO_TIME /\
  time_rem (time_add (492 * ns) 0) (12 * ns) = 12 * ns + 0.
Proof.
  assert (time_rem (time_add (492 * ns) 0) (12 * ns) = 12 * ns + 0) as E
    by (vm_compute; reflexivity).
  split; [|exact E].
  apply (delay_is_zero_iff (492 * ns) (12 * ns) 0 0);
    [unfold ns; lia | lia | unfold ns; lia | right; exact E].
Defined.

(** ** The two overloads of the remainder *)


(** ** Waiting and polling *)




(** ** The temporal shift *)

Lemma delay_shift (now p o t : sc_time) :
  delay now p o t = delay (now + t) p o 0.
Proof. unfold delay, time_add. rewrite Z.add_0_r. reflexivity. Qed.

Lemma clocks_shift (now p z t : sc_time) :
  clocks now p z t = clocks (now + t) p z 0.
Proof. unfold clocks, time_add. rewrite Z.add_0_r. reflexivity. Qed.

(** X11.  A clock whose temporal shift is [t] answers at [now] what the
    same clock without shift answers at [now + t]: this holds for the five
    until queries, the five next queries, [read] and [cycles]. *)
Theorem time_shift_is_a_later_time (c : no_clock) (now t : sc_time) (n : Z) :
  let ct := set_time_shift t c in
  let c0 := set_time_shift 0 c in
  (until_posedge ct now n = until_posedge c0 (now + t) n /\
   until_negedge ct now n = until_negedge c0 (now + t) n /\
   until_sample ct now n = until_sample c0 (now + t) n /\
   until_setedge ct now n = until_setedge c0 (now + t) n /\
   until_anyedge ct now n = until_anyedge c0 (now + t) n) /\
  (next_posedge ct now n = next_posedge c0 (now + t) n /\
   next_negedge ct now n = next_negedge c0 (now + t) n /\
   next_sample ct now n = next_sample c0 (now + t) n /\
   next_setedge ct now n = next_setedge c0 (now + t) n /\
   next_anyedge ct now n = next_anyedge c0 (now + t) n) /\
  read ct now = read c0 (now + t) /\
  cycles ct now = cycles c0 (now + t).
Proof.
  intros ct c0. subst ct c0.
  unfold until_anyedge, next_anyedge, read, until_posedge, until_negedge,
    until_sample, until_setedge, next_posedge, next_negedge, next_sample,
    next_setedge, cycles, set_time_shift.
  cbn [m_tPERIOD m_tPOSEDGE m_tNEGEDGE m_tSAMPLE m_tSETEDGE m_tSHIFT
       m_base_count m_frequency_set].
  rewrite !(delay_shift now _ _ t), (clocks_shift now _ _ t).
  repeat split.
Qed.

(** ** The other policy of the safe difference *)

(** X16.  With [INVERT_NEGATIVE] defined, [sc_core_time_diff] returns the
    absolute difference of its two arguments; it logs one warning when the
    first is the smaller and nothing otherwise. *)
Theorem time_diff_inverted {St : Type} (a b : sc_time) (file : string)
    (lnum : Z) (w : St * list sc_report) :
  0 <= a < 2 ^ 64 -> 0 <= b < 2 ^ 64 ->
  exists w',
    sc_core_time_diff true a b file lnum w = (Returned (Z.abs (a - b)), w') /\
    (b <= a -> w' = w) /\
    (a < b -> w' = (fst w, snd w ++ [inverted_diff_warning file lnum])).
Proof.
  intros Ha Hb. unfold sc_core_time_diff.
  destruct (Z.geb_spec a b) as [Hge|Hlt].
  - exists w. unfold ret, time_sub. rewrite wrap64_small by lia.
    rewrite Z.abs_eq by lia. repeat split; try reflexivity. lia.
  - eexists. unfold bind, report, ret, time_sub. cbn [fst snd].
    rewrite wrap64_small by lia.
    replace (Z.abs (a - b)) with (b - a) by lia.
    repeat split; try reflexivity. lia.
Qed.

Lemma time_diff_inverted_witness :
  exists w' : unit * list sc_report,
    sc_core_time_diff true (3 * ns) (5 * ns) "test.cpp" 7 (tt, [])
    = (Returned (Z.abs (3 * ns - 5 * ns)), w') /\
    (5 * ns <= 3 * ns -> w' = (tt, [])) /\
    (3 * ns < 5 * ns -> w' = (tt, [inverted_diff_warning "test.cpp" 7])).
Proof.
  apply (time_diff_inverted (3 * ns) (5 * ns) "test.cpp" 7 (tt, []));
    unfold ns; lia.
Defined.

(** ** The event accessors *)

(** X19.  The argument of an event accessor is a [size_t] that the wait
    receives as an [unsigned int]: adding a multiple of [2 ^ 32] to it
    changes nothing. *)
Theorem event_argument_is_narrowed (c : no_clock) (now : sc_time)
    (events j : Z) :
  posedge_event c now (events + j * 2 ^ 32) = posedge_event c now events /\
  negedge_event c now (events + j * 2 ^ 32) = negedge_event c now events /\
  sample_event c now (events + j * 2 ^ 32) = sample_event c now events /\
  setedge_event c now (events + j * 2 ^ 32) = setedge_event c now events /\
  value_changed_event c now (events + j * 2 ^ 32)
  = value_changed_event c now events /\
  default_event c now (events + j * 2 ^ 32) = default_event c now events.
Proof.
  assert (wrap32 (events + j * 2 ^ 32) = wrap32 events) as E
    by (unfold wrap32; apply Z.mod_add; lia).
  unfold default_event, posedge_event, negedge_event, sample_event,
    setedge_event, value_changed_event.
  rewrite E. repeat split.
Qed.
